(** * Tracing.py: the filtering span processor

    A shallow embedding of [FilteringSpanProcessor] (src/Tracing.py, lines
    22-75) and the properties of its four operations, and of the loop of
    [setup_azure_ai_observability] over the registered processors (lines
    146-149).  The rest of the script only wires
    third-party clients together and is not modelled.

    Conventions of the embedding:
    - Python [int] is [Z]; a [str] is [string]; a list is [list].
    - The span's attribute mapping is a finite map [gmap string AttrValue];
      [dict.get] is the map lookup (absent key = Python [None]).
    - [filter_criteria] is a dict used as a record of five optional keys; a
      key that is absent is [None] in the corresponding field.
    - The wrapped exporter is an external object: an interface (type class)
      over the type of its state, whose methods may return or raise.
    - The quotient [duration_ns / 1_000_000] is a binary64 float: it is
      computed with the IEEE 754 specification of the standard library
      ([SpecFloat]), correctly rounded, as CPython does for two ints. *)

From Stdlib Require Import ZArith String List Bool Lia.
From Stdlib Require Import SpecFloat.
From stdpp Require Import gmap strings.
Import ListNotations.

Local Open Scope Z_scope.
Local Open Scope string_scope.

(** ** Python values read by the processor *)

(** [opentelemetry.trace.SpanKind] *)
Inductive SpanKind := INTERNAL | SERVER | CLIENT | PRODUCER | CONSUMER.

Definition SpanKind_eqb (a b : SpanKind) : bool :=
  match a, b with
  | INTERNAL, INTERNAL | SERVER, SERVER | CLIENT, CLIENT
  | PRODUCER, PRODUCER | CONSUMER, CONSUMER => true
  | _, _ => false
  end.

(** A span attribute value: text, integer or boolean.  (Float-valued and
    sequence-valued attributes are left out; an operation identifier is
    text.) *)
Inductive AttrValue :=
| AStr (s : string)
| AInt (n : Z)
| ABool (b : bool).

(** Python's [==] on these values: [bool] is a subclass of [int], so
    [True == 1] and [False == 0]; a [str] equals only an equal [str]. *)
Definition py_eq (a b : AttrValue) : bool :=
  match a, b with
  | AStr s, AStr t => String.eqb s t
  | AInt n, AInt m => Z.eqb n m
  | ABool x, ABool y => Bool.eqb x y
  | AInt n, ABool y => Z.eqb n (if y then 1 else 0)
  | ABool x, AInt m => Z.eqb (if x then 1 else 0) m
  | _, _ => false
  end.

(** [x in lst] for the result [x] of [dict.get] (an [option]: [None] is
    Python's [None], which equals no attribute value) and a list of
    attribute values. *)
Definition py_in (x : option AttrValue) (lst : list AttrValue) : bool :=
  match x with
  | None => false
  | Some v => existsb (py_eq v) lst
  end.

(** [needle in hay] for two [str]: substring containment, case-sensitive. *)
Fixpoint str_contains (needle hay : string) : bool :=
  String.prefix needle hay
  || match hay with
     | EmptyString => false
     | String _ rest => str_contains needle rest
     end.

(** The read-only view of a completed span. *)
Record Span := {
  name : string;
  kind : SpanKind;
  start_time : Z;
  end_time : Z;
  attributes : gmap string AttrValue
}.

(** The [filter_criteria] dict. *)
Record FilterCriteria := {
  include_names : option (list string);
  operation_names : option (list AttrValue);
  min_duration_ms : option Z;
  exclude_operations : option (list AttrValue);
  exclude_span_kinds : option (list SpanKind)
}.

(** The empty dict [{}]. *)
Definition empty_criteria : FilterCriteria :=
  {| include_names := None; operation_names := None; min_duration_ms := None;
     exclude_operations := None; exclude_span_kinds := None |}.

(** Truth value of [d.get(key)] when the value is a list: [None] (absent)
    and the empty list are falsy. *)
Definition truthy_list {A} (v : option (list A)) : bool :=
  match v with
  | Some (_ :: _) => true
  | _ => false
  end.

(** Truth value of [d.get(key)] when the value is an int: [None] and [0]
    are falsy. *)
Definition truthy_int (v : option Z) : bool :=
  match v with
  | Some n => negb (Z.eqb n 0)
  | None => false
  end.

(** Truth value of the dict itself: falsy exactly when it has no key. *)
Definition truthy_dict (c : FilterCriteria) : bool :=
  match include_names c, operation_names c, min_duration_ms c,
        exclude_operations c, exclude_span_kinds c with
  | None, None, None, None, None => false
  | _, _, _, _, _ => true
  end.

(** ** Exceptions and the state-and-exception monad *)

Inductive PyExn :=
| KeyError (key : string)
| OverflowError
| ZeroDivisionError
| ExporterError (detail : string).

Inductive Outcome (S A : Type) :=
| Returned (a : A) (s : S)
| Raised (x : PyExn) (s : S).
Arguments Returned {S A} a s.
Arguments Raised {S A} x s.

Definition M (S A : Type) : Type := S -> Outcome S A.

Definition ret {S A} (a : A) : M S A := fun s => Returned a s.

Definition raise {S A} (x : PyExn) : M S A := fun s => Raised x s.

Definition bind {S A B} (m : M S A) (k : A -> M S B) : M S B :=
  fun s =>
    match m s with
    | Returned a s' => k a s'
    | Raised x s' => Raised x s'
    end.

Notation "x <- m ;; k" := (bind m (fun x => k))
  (at level 100, m at next level, right associativity).

Definition state_of {S A} (o : Outcome S A) : S :=
  match o with
  | Returned _ s => s
  | Raised _ s => s
  end.

(** Lift a pure computation that may raise. *)
Definition lift_result {S A} (r : PyExn + A) : M S A :=
  match r with
  | inl x => raise x
  | inr a => ret a
  end.

(** [d[key]]: the subscript raises [KeyError] on an absent key. *)
Definition getitem {S A} (key : string) (v : option A) : M S A :=
  match v with
  | Some a => ret a
  | None => raise (KeyError key)
  end.

(** ** Float arithmetic of the duration check *)

Definition Z2SF (z : Z) : spec_float :=
  match z with
  | Z0 => S754_zero false
  | Zpos p => S754_finite false p 0
  | Zneg p => S754_finite true p 0
  end.

(** [a / b] on two ints: the binary64 float nearest to the exact quotient
    (ties to even); [OverflowError] when that is out of range,
    [ZeroDivisionError] when [b] is [0]. *)
Definition int_truediv (a b : Z) : PyExn + spec_float :=
  if Z.eqb b 0 then inl ZeroDivisionError
  else
    match SFdiv 53 1024 (Z2SF a) (Z2SF b) with
    | S754_infinity _ => inl OverflowError
    | q => inr q
    end.

(** [f < n] for a float [f] and an int [n]: Python compares the two exact
    values. *)
Definition float_lt_int (f : spec_float) (n : Z) : bool :=
  match f with
  | S754_zero _ => Z.ltb 0 n
  | S754_infinity s => s
  | S754_nan => false
  | S754_finite s m e =>
      let v := if s then Zneg m else Zpos m in
      if Z.leb 0 e then Z.ltb (v * 2 ^ e) n
      else Z.ltb v (n * 2 ^ (- e))
  end.

(** ** The wrapped exporter (external collaborator) *)

Inductive SpanExportResult := SUCCESS | FAILURE.

(** What the processor needs of an exporter: [export(batch)],
    [shutdown()] and [force_flush(timeout_millis)], each acting on the
    exporter's own state [E] and free to raise. *)
Class SpanExporter (E : Type) := {
  export : list Span -> M E SpanExportResult;
  exporter_shutdown : M E unit;
  exporter_force_flush : Z -> M E bool
}.

(** ** The processor *)

(** The two attributes set by [__init__]. *)
Record FilteringSpanProcessor (E : Type) := {
  exporter : E;
  filter_criteria : FilterCriteria
}.
Arguments exporter {E} _.
Arguments filter_criteria {E} _.

(** The attribute key read by both operation filters. *)
Definition OPERATION_KEY : string := "gen_ai.operation.name".

Section Processor.
Context {E : Type} `{X : SpanExporter E}.

(** [__init__(self, exporter, filter_criteria=None)]:
    [self.filter_criteria = filter_criteria or {}]. *)
Definition init (exporter0 : E) (filter_criteria0 : option FilterCriteria)
  : FilteringSpanProcessor E :=
  {| exporter := exporter0;
     filter_criteria :=
       match filter_criteria0 with
       | Some c => if truthy_dict c then c else empty_criteria
       | None => empty_criteria
       end |}.

(** A method call on [self.exporter]: runs on the exporter's state and
    leaves [self.filter_criteria] alone. *)
Definition on_exporter {A} (m : M E A) : M (FilteringSpanProcessor E) A :=
  fun self =>
    match m (exporter self) with
    | Returned a e => Returned a {| exporter := e; filter_criteria := filter_criteria self |}
    | Raised x e => Raised x {| exporter := e; filter_criteria := filter_criteria self |}
    end.

(** Reading [self.filter_criteria]. *)
Definition get_filter_criteria : M (FilteringSpanProcessor E) FilterCriteria :=
  fun self => Returned (filter_criteria self) self.

(** [on_start(self, span, parent_context)]: [pass]. *)
Definition on_start {C} (span : Span) (parent_context : C)
  : M (FilteringSpanProcessor E) unit :=
  ret tt.

(** The five guarded blocks of [on_end].  Each yields [true] when its
    [return] statement is reached (the span is dropped there). *)

(** 1. Filter by span name pattern (lines 38-40). *)
Definition filter_include_names {S} (criteria : FilterCriteria) (span : Span) : M S bool :=
  if truthy_list (include_names criteria) then
    names <- getitem "include_names" (include_names criteria) ;;
    ret (negb (existsb (fun n => str_contains n (name span)) names))
  else ret false.

(** 2. Filter by operation type (lines 43-46). *)
Definition filter_operation_names {S} (criteria : FilterCriteria) (span : Span) : M S bool :=
  if truthy_list (operation_names criteria) then
    let operation := attributes span !! OPERATION_KEY in
    allowed <- getitem "operation_names" (operation_names criteria) ;;
    ret (negb (py_in operation allowed))
  else ret false.

(** 3. Filter by minimum duration (lines 49-53). *)
Definition filter_min_duration {S} (criteria : FilterCriteria) (span : Span) : M S bool :=
  if truthy_int (min_duration_ms criteria) then
    let duration_ns := end_time span - start_time span in
    duration_ms <- lift_result (int_truediv duration_ns 1000000) ;;
    floor <- getitem "min_duration_ms" (min_duration_ms criteria) ;;
    ret (float_lt_int duration_ms floor)
  else ret false.

(** 4. Exclude certain operations (lines 56-59). *)
Definition filter_exclude_operations {S} (criteria : FilterCriteria) (span : Span) : M S bool :=
  if truthy_list (exclude_operations criteria) then
    let operation := attributes span !! OPERATION_KEY in
    excluded <- getitem "exclude_operations" (exclude_operations criteria) ;;
    ret (py_in operation excluded)
  else ret false.

(** 5. Filter by span kind (lines 62-64). *)
Definition filter_exclude_span_kinds {S} (criteria : FilterCriteria) (span : Span) : M S bool :=
  if truthy_list (exclude_span_kinds criteria) then
    kinds <- getitem "exclude_span_kinds" (exclude_span_kinds criteria) ;;
    ret (existsb (SpanKind_eqb (kind span)) kinds)
  else ret false.

(** [on_end(self, span)] (lines 33-67): the blocks in order, returning at
    the first one that drops; otherwise [self.exporter.export([span])],
    whose result is discarded. *)
Definition on_end (span : Span) : M (FilteringSpanProcessor E) unit :=
  criteria <- get_filter_criteria ;;
  stop <- filter_include_names criteria span ;;
  if stop : bool then ret tt else
  stop <- filter_operation_names criteria span ;;
  if stop : bool then ret tt else
  stop <- filter_min_duration criteria span ;;
  if stop : bool then ret tt else
  stop <- filter_exclude_operations criteria span ;;
  if stop : bool then ret tt else
  stop <- filter_exclude_span_kinds criteria span ;;
  if stop : bool then ret tt else
  _ <- on_exporter (export [span]) ;;
  ret tt.

(** [shutdown(self)] (lines 69-71). *)
Definition shutdown : M (FilteringSpanProcessor E) unit :=
  on_exporter exporter_shutdown.

(** [force_flush(self, timeout_millis=30000)] (lines 73-75); [None] is a
    call without the argument. *)
Definition force_flush (timeout_millis : option Z) : M (FilteringSpanProcessor E) bool :=
  let timeout_millis := match timeout_millis with Some t => t | None => 30000 end in
  on_exporter (exporter_force_flush timeout_millis).

End Processor.

(** ** Observing the calls made on the exporter *)

Inductive ExporterCall :=
| CallExport (batch : list Span)
| CallShutdown
| CallForceFlush (timeout_millis : Z).

(** An exporter wrapped with a log: every method call is appended to
    [calls] and then handed to the wrapped exporter [inner], whatever that
    one does (return or raise). *)
Record Recorder (E : Type) := {
  calls : list ExporterCall;
  inner : E
}.
Arguments calls {E} _.
Arguments inner {E} _.

Definition recording {E A} (c : ExporterCall) (m : M E A) : M (Recorder E) A :=
  fun r =>
    match m (inner r) with
    | Returned a e => Returned a {| calls := calls r ++ [c]; inner := e |}
    | Raised x e => Raised x {| calls := calls r ++ [c]; inner := e |}
    end.

#[export] Instance Recorder_exporter {E} `{X : SpanExporter E} : SpanExporter (Recorder E) := {
  export batch := recording (CallExport batch) (export batch);
  exporter_shutdown := recording CallShutdown exporter_shutdown;
  exporter_force_flush t := recording (CallForceFlush t) (exporter_force_flush t)
}.

(** The log after a run of a processor method. *)
Definition calls_after {E A} (o : Outcome (FilteringSpanProcessor (Recorder E)) A)
  : list ExporterCall :=
  calls (exporter (state_of o)).

(** What a run did to the exporter: the processor's own fields dropped. *)
Definition exporter_outcome {E A} (o : Outcome (FilteringSpanProcessor E) A) : Outcome E A :=
  match o with
  | Returned a self => Returned a (exporter self)
  | Raised x self => Raised x (exporter self)
  end.

(** A concrete exporter used in examples: its state counts the spans
    received and remembers whether it was shut down; no method raises. *)
Record CountingState := {
  exported : nat;
  closed : bool
}.

#[export] Instance Counting_exporter : SpanExporter CountingState := {
  export batch := fun st =>
    Returned SUCCESS {| exported := exported st + length batch; closed := closed st |};
  exporter_shutdown := fun st =>
    Returned tt {| exported := exported st; closed := true |};
  exporter_force_flush t := fun st => Returned (negb (closed st)) st
}.

(** ** The predicates the code applies

    The test of each block of [on_end] as a boolean: whether the span gets
    past the block.  A block whose criterion is absent or falsy is skipped
    by its guard, so it lets every span past. *)

Definition passes_include_names (c : FilterCriteria) (s : Span) : bool :=
  match include_names c with
  | Some (n :: names) => existsb (fun sub => str_contains sub (name s)) (n :: names)
  | _ => true
  end.

Definition passes_operation_names (c : FilterCriteria) (s : Span) : bool :=
  match operation_names c with
  | Some (o :: ops) => py_in (attributes s !! OPERATION_KEY) (o :: ops)
  | _ => true
  end.

Definition passes_min_duration (c : FilterCriteria) (s : Span) : bool :=
  match min_duration_ms c with
  | Some floor =>
      if Z.eqb floor 0 then true
      else match int_truediv (end_time s - start_time s) 1000000 with
           | inr duration_ms => negb (float_lt_int duration_ms floor)
           | inl _ => false
           end
  | None => true
  end.

Definition passes_exclude_operations (c : FilterCriteria) (s : Span) : bool :=
  match exclude_operations c with
  | Some (o :: ops) => negb (py_in (attributes s !! OPERATION_KEY) (o :: ops))
  | _ => true
  end.

Definition passes_exclude_span_kinds (c : FilterCriteria) (s : Span) : bool :=
  match exclude_span_kinds c with
  | Some (k :: kinds) => negb (existsb (SpanKind_eqb (kind s)) (k :: kinds))
  | _ => true
  end.

(** AND of the five predicates. *)
Definition all_predicates_pass (c : FilterCriteria) (s : Span) : bool :=
  passes_include_names c s && passes_operation_names c s
  && passes_min_duration c s && passes_exclude_operations c s
  && passes_exclude_span_kinds c s.

(** Forwarding: one [export] call with the single-element batch, result
    discarded. *)
Definition forward {E} `{X : SpanExporter E} (span : Span) : M (FilteringSpanProcessor E) unit :=
  _ <- on_exporter (export [span]) ;; ret tt.

(** The effect of [on_end] on the exporter as a function of the five
    predicates: the duration check is reached only past the two
    allow-lists, and it is the only place where [on_end] itself can
    raise. *)
Definition filtered_outcome {E} `{X : SpanExporter E}
    (c : FilterCriteria) (span : Span) (e : E)
  : Outcome E unit :=
  if passes_include_names c span && passes_operation_names c span then
    if passes_min_duration c span then
      if passes_exclude_operations c span && passes_exclude_span_kinds c span
      then (_ <- export [span] ;; ret tt) e
      else Returned tt e
    else
      match int_truediv (end_time span - start_time span) 1000000 with
      | inl x => Raised x e
      | inr _ => Returned tt e
      end
  else Returned tt e.

(** ** Auxiliary definitions of the statements *)

(** Criteria dicts with a single key. *)
Definition only_include_names (names : list string) : FilterCriteria :=
  {| include_names := Some names; operation_names := None; min_duration_ms := None;
     exclude_operations := None; exclude_span_kinds := None |}.

Definition only_operation_names (ops : list AttrValue) : FilterCriteria :=
  {| include_names := None; operation_names := Some ops; min_duration_ms := None;
     exclude_operations := None; exclude_span_kinds := None |}.

Definition only_min_duration_ms (floor : Z) : FilterCriteria :=
  {| include_names := None; operation_names := None; min_duration_ms := Some floor;
     exclude_operations := None; exclude_span_kinds := None |}.

Definition only_exclude_operations (ops : list AttrValue) : FilterCriteria :=
  {| include_names := None; operation_names := None; min_duration_ms := None;
     exclude_operations := Some ops; exclude_span_kinds := None |}.

(** The dict with the key [exclude_span_kinds] set to [v] (or removed). *)
Definition with_exclude_span_kinds (v : option (list SpanKind)) (c : FilterCriteria)
  : FilterCriteria :=
  {| include_names := include_names c; operation_names := operation_names c;
     min_duration_ms := min_duration_ms c; exclude_operations := exclude_operations c;
     exclude_span_kinds := v |}.

(** The processor with another criteria dict, on the same exporter. *)
Definition with_criteria {E} (c : FilterCriteria) (self : FilteringSpanProcessor E)
  : FilteringSpanProcessor E :=
  {| exporter := exporter self; filter_criteria := c |}.

(** Idempotence of an exporter's [shutdown], as the data model requires it:
    the call returns, and a second call on the resulting state returns too
    and leaves that state as it is. *)
Definition shutdown_idempotent (E : Type) `{X : SpanExporter E} : Prop :=
  forall e : E,
    exists e', exporter_shutdown e = Returned tt e'
               /\ exporter_shutdown e' = Returned tt e'.

(** Two values of a list-valued criterion that [on_end] cannot tell apart:
    equal, or both falsy (absent or empty). *)
Definition same_or_falsy_list {A} (v w : option (list A)) : Prop :=
  v = w \/ (truthy_list v = false /\ truthy_list w = false).

(** The same for [min_duration_ms]: equal, or both falsy (absent or 0). *)
Definition same_or_falsy_int (v w : option Z) : Prop :=
  v = w \/ (truthy_int v = false /\ truthy_int w = false).

(** Two criteria dicts that differ only by falsy values. *)
Definition same_up_to_falsy (c c' : FilterCriteria) : Prop :=
  same_or_falsy_list (include_names c) (include_names c')
  /\ same_or_falsy_list (operation_names c) (operation_names c')
  /\ same_or_falsy_int (min_duration_ms c) (min_duration_ms c')
  /\ same_or_falsy_list (exclude_operations c) (exclude_operations c')
  /\ same_or_falsy_list (exclude_span_kinds c) (exclude_span_kinds c').

(** The dict with every falsy value removed. *)
Definition unset_falsy (c : FilterCriteria) : FilterCriteria :=
  {| include_names := if truthy_list (include_names c) then include_names c else None;
     operation_names := if truthy_list (operation_names c) then operation_names c else None;
     min_duration_ms := if truthy_int (min_duration_ms c) then min_duration_ms c else None;
     exclude_operations :=
       if truthy_list (exclude_operations c) then exclude_operations c else None;
     exclude_span_kinds :=
       if truthy_list (exclude_span_kinds c) then exclude_span_kinds c else None |}.

(** ** The predicates as the specification words them (sections 3 and 4.1)

    A criterion is configured when its key is present.  Only for
    [include_names] does the specification add "and non-empty"; for the
    others a configured empty collection, or a floor of 0, is applied as it
    stands.  The quotient and the comparison are those of the code. *)

(** "If [include_names] is configured and non-empty: span's name must
    contain at least one configured substring, else drop." *)
Definition spec_passes_include_names (c : FilterCriteria) (s : Span) : bool :=
  match include_names c with
  | Some (n :: names) => existsb (fun sub => str_contains sub (name s)) (n :: names)
  | _ => true
  end.

(** "If [operation_names] is configured: look up the operation attribute;
    if absent, or present but not a member of the configured set, drop." *)
Definition spec_passes_operation_names (c : FilterCriteria) (s : Span) : bool :=
  match operation_names c with
  | Some ops => py_in (attributes s !! OPERATION_KEY) ops
  | None => true
  end.

(** "If [min_duration_ms] is configured: compute duration in milliseconds
    as [(end_time_ns - start_time_ns) / 1_000_000]; if less than the floor,
    drop." *)
Definition spec_passes_min_duration (c : FilterCriteria) (s : Span) : bool :=
  match min_duration_ms c with
  | Some floor =>
      match int_truediv (end_time s - start_time s) 1000000 with
      | inr duration_ms => negb (float_lt_int duration_ms floor)
      | inl _ => false
      end
  | None => true
  end.

(** "If [exclude_operations] is configured: if the operation attribute's
    value is a member, drop." *)
Definition spec_passes_exclude_operations (c : FilterCriteria) (s : Span) : bool :=
  match exclude_operations c with
  | Some ops => negb (py_in (attributes s !! OPERATION_KEY) ops)
  | None => true
  end.

(** "If [exclude_span_kinds] is configured: if the span's kind is a member,
    drop." *)
Definition spec_passes_exclude_span_kinds (c : FilterCriteria) (s : Span) : bool :=
  match exclude_span_kinds c with
  | Some kinds => negb (existsb (SpanKind_eqb (kind s)) kinds)
  | None => true
  end.

(** "All configured predicates must pass for the span to be forwarded." *)
Definition spec_all_predicates_pass (c : FilterCriteria) (s : Span) : bool :=
  spec_passes_include_names c s && spec_passes_operation_names c s
  && spec_passes_min_duration c s && spec_passes_exclude_operations c s
  && spec_passes_exclude_span_kinds c s.

(** ** Sample data *)

(** A 100 ms span with no attribute at all. *)
Definition span_without_operation : Span :=
  {| name := "chat-completion"; kind := INTERNAL;
     start_time := 1000; end_time := 100001000; attributes := ∅ |}.

(** The same span with the operation stored under another key. *)
Definition span_operation_elsewhere : Span :=
  {| name := "chat-completion"; kind := INTERNAL;
     start_time := 1000; end_time := 100001000;
     attributes := {[ "operation.name" := AStr "debug_ping" ]} |}.

(** A 5 ms span of a tool call. *)
Definition span_execute_tool : Span :=
  {| name := "execute_tool"; kind := INTERNAL;
     start_time := 0; end_time := 5000000; attributes := ∅ |}.

(** Two CLIENT spans, of 99 ms and of exactly 100 ms. *)
Definition span_99ms : Span :=
  {| name := "chat"; kind := CLIENT;
     start_time := 1700000000000000000; end_time := 1700000000099000000;
     attributes := ∅ |}.

Definition span_100ms : Span :=
  {| name := "chat"; kind := CLIENT;
     start_time := 1700000000000000000; end_time := 1700000000100000000;
     attributes := ∅ |}.

(** Initial states of the example exporter, bare and recorded. *)
Definition fresh_exporter : CountingState := {| exported := 0; closed := false |}.

Definition fresh_recorder : Recorder CountingState :=
  {| calls := []; inner := fresh_exporter |}.

(** [{"include_names": ["chat"], "exclude_span_kinds": [SpanKind.CLIENT]}] *)
Definition criteria_exclude_client : FilterCriteria :=
  with_exclude_span_kinds (Some [CLIENT]) (only_include_names ["chat"]).

(** All five keys present, each with a falsy value. *)
Definition all_falsy_criteria : FilterCriteria :=
  {| include_names := Some []; operation_names := Some []; min_duration_ms := Some 0;
     exclude_operations := Some []; exclude_span_kinds := Some [] |}.

(** ** Further definitions: repeated calls, weaker criteria, other exporters *)

(** The processor after [on_end] has been called for each span in turn.
    An exception raised by one call is the caller's to handle; the state it
    leaves behind is the state the next call starts from. *)
Definition on_end_each {E} `{X : SpanExporter E}
    (spans : list Span) (self : FilteringSpanProcessor E) : FilteringSpanProcessor E :=
  fold_left (fun st span => state_of (on_end span st)) spans self.

(** [v'] is the value [v] of a key, or the key is absent. *)
Definition absent_or_same {A} (v' v : option A) : Prop := v' = None \/ v' = v.

(** [c'] is the dict [c] with some of its keys removed. *)
Definition keys_removed (c' c : FilterCriteria) : Prop :=
  absent_or_same (include_names c') (include_names c)
  /\ absent_or_same (operation_names c') (operation_names c)
  /\ absent_or_same (min_duration_ms c') (min_duration_ms c)
  /\ absent_or_same (exclude_operations c') (exclude_operations c)
  /\ absent_or_same (exclude_span_kinds c') (exclude_span_kinds c).

(** An exporter that refuses every batch: [export] returns [FAILURE]
    without raising. *)
#[export] Instance Rejecting_exporter : SpanExporter unit := {
  export batch := fun st => Returned FAILURE st;
  exporter_shutdown := fun st => Returned tt st;
  exporter_force_flush t := fun st => Returned false st
}.

(** An exporter whose [export] raises. *)
#[export] Instance Broken_exporter : SpanExporter unit := {
  export batch := fun st => Raised (ExporterError "connection lost") st;
  exporter_shutdown := fun st => Returned tt st;
  exporter_force_flush t := fun st => Returned false st
}.

(** ** The processors of [setup_azure_ai_observability] (lines 146-149)

    [tracer_provider._active_span_processor._span_processors] is, in the
    OpenTelemetry SDK, a tuple of references to processor objects: it can
    be copied with [list(...)] and iterated, but it has no [remove] method,
    so evaluating [....remove] on line 149 raises [AttributeError]. *)

(** The classes of exporter the script tells apart with [isinstance]. *)
Inductive ExporterClass :=
| AzureMonitorTraceExporter
| ConsoleSpanExporter
| OtherExporter.

(** A registered processor object: one of the runtime's own processors,
    with its [_exporter] attribute when it has one, or a
    [FilteringSpanProcessor], whose only attributes are [exporter] and
    [filter_criteria] (lines 26-27). *)
Inductive ProcessorObj :=
| RuntimeProcessor (_exporter : option ExporterClass)
| FilteringProcessor (p : FilteringSpanProcessor ExporterClass).

(** [hasattr(processor, '_exporter') and
     isinstance(processor._exporter, AzureMonitorTraceExporter)] *)
Definition has_azure_exporter (processor : ProcessorObj) : bool :=
  match processor with
  | RuntimeProcessor (Some AzureMonitorTraceExporter) => true
  | _ => false
  end.

(** How the loop ends: normally, with the tuple of registered processors
    as it then is, or with the [AttributeError] raised at a processor. *)
Inductive LoopOutcome :=
| LoopFinished (span_processors : list nat)
| LoopAttributeError (processor : nat).

(** The [for] loop of lines 147-149 over the copy [existing_processors];
    [heap] gives the object behind each reference.  When the test of line
    148 holds, line 149 looks [remove] up on the tuple and raises. *)
Fixpoint remove_azure_loop (heap : nat -> ProcessorObj)
    (existing_processors span_processors : list nat) : LoopOutcome :=
  match existing_processors with
  | [] => LoopFinished span_processors
  | processor :: rest =>
      if has_azure_exporter (heap processor) then LoopAttributeError processor
      else remove_azure_loop heap rest span_processors
  end.

(** Lines 146-149: the copy is taken, then the loop runs. *)
Definition remove_azure_processors (heap : nat -> ProcessorObj)
    (span_processors : list nat) : LoopOutcome :=
  let existing_processors := span_processors in
  remove_azure_loop heap existing_processors span_processors.


(** A span with an empty name. *)
Definition span_unnamed : Span :=
  {| name := ""; kind := INTERNAL; start_time := 0; end_time := 1;
     attributes := ∅ |}.

(** A span that ends at the instant it starts. *)
Definition span_instant : Span :=
  {| name := "event"; kind := INTERNAL;
     start_time := 1700000000000000000; end_time := 1700000000000000000;
     attributes := ∅ |}.

(** A span carrying a text operation attribute. *)
Definition span_chat_operation : Span :=
  {| name := "invoke_agent"; kind := INTERNAL;
     start_time := 0; end_time := 2000000;
     attributes := {[ "gen_ai.operation.name" := AStr "chat" ]} |}.

(** A span with the operation "debug_ping" under the operation key. *)
Definition span_debug_ping : Span :=
  {| name := "chat-completion"; kind := INTERNAL;
     start_time := 1000; end_time := 100001000;
     attributes := {[ "gen_ai.operation.name" := AStr "debug_ping" ]} |}.

(** ** Basic facts *)

Lemma append_cons (a : Ascii.ascii) (p q : string) :
  (String a p ++ q)%string = String a (p ++ q)%string.
Proof. reflexivity. Qed.

Lemma prefix_true_iff (p s : string) :
  String.prefix p s = true <-> exists post, s = (p ++ post)%string.
Proof.
  revert s. induction p as [|a p IH]; intros s.
  - destruct s; simpl; split; eauto.
  - destruct s as [|b s]; simpl.
    + split; [discriminate | intros [post Hp]; rewrite append_cons in Hp; discriminate].
    + destruct (Ascii.ascii_dec a b) as [->|Hne].
      * rewrite IH. split.
        -- intros [post ->]. exists post. reflexivity.
        -- intros [post Hp]. rewrite append_cons in Hp. exists post. congruence.
      * split; [discriminate |].
        intros [post Hp]. rewrite append_cons in Hp. congruence.
Qed.

(** [needle in hay] holds exactly when [hay] splits around a copy of
    [needle]. *)
Lemma str_contains_iff (needle hay : string) :
  str_contains needle hay = true
  <-> exists pre post, hay = (pre ++ needle ++ post)%string.
Proof.
  induction hay as [|b hay IH]; cbn [str_contains].
  - rewrite orb_false_r, prefix_true_iff. split.
    + intros [post ->]. exists EmptyString, post. reflexivity.
    + intros [[|a pre] [post Hp]].
      * exists post. exact Hp.
      * rewrite append_cons in Hp. discriminate.
  - rewrite orb_true_iff, prefix_true_iff, IH. split.
    + intros [[post ->] | [pre [post ->]]].
      * exists EmptyString, post. reflexivity.
      * exists (String b pre), post. reflexivity.
    + intros [[|a pre] [post Hp]].
      * left. exists post. exact Hp.
      * right. rewrite append_cons in Hp. exists pre, post. congruence.
Qed.

(** Unfolding of the monadic code and of the predicates, and the case
    analysis on the tests the code performs. *)
Ltac unfold_on_end :=
  cbv [on_end forward bind get_filter_criteria filter_include_names
       filter_operation_names filter_min_duration filter_exclude_operations
       filter_exclude_span_kinds getitem lift_result ret raise
       filter_criteria exporter include_names operation_names min_duration_ms
       exclude_operations exclude_span_kinds truthy_list truthy_int negb andb
       all_predicates_pass passes_include_names passes_operation_names
       passes_min_duration passes_exclude_operations
       passes_exclude_span_kinds].

Ltac case_test :=
  match goal with
  | |- context [Z.eqb ?a 0] => destruct (Z.eqb a 0) eqn:?
  | |- context [int_truediv ?a ?b] => destruct (int_truediv a b) eqn:?
  | |- context [float_lt_int ?a ?l] => destruct (float_lt_int a l) eqn:?
  | |- context [existsb ?f ?l] => destruct (existsb f l) eqn:?
  | |- context [py_in ?a ?l] => destruct (py_in a l) eqn:?
  end; unfold_on_end.

Ltac case_criteria c :=
  destruct c as [[[|? ?]|] [[|? ?]|] [?|] [[|? ?]|] [[|? ?]|]].

Section OnEnd.
Context {E : Type} `{X : SpanExporter E}.

(** The nested early returns compute the conjunction: when every
    predicate passes, [on_end] is the forwarding call. *)
Lemma on_end_pass (self : FilteringSpanProcessor E) (span : Span) :
  all_predicates_pass (filter_criteria self) span = true ->
  on_end span self = forward span self.
Proof.
  destruct self as [e c]. case_criteria c; unfold_on_end;
    repeat case_test; reflexivity || discriminate.
Qed.

(** A span rejected by the name or the operation allow-list is dropped
    before the duration is even computed. *)
Lemma on_end_drop_early (self : FilteringSpanProcessor E) (span : Span) :
  passes_include_names (filter_criteria self) span
  && passes_operation_names (filter_criteria self) span = false ->
  on_end span self = Returned tt self.
Proof.
  destruct self as [e c]. case_criteria c; unfold_on_end;
    repeat case_test; reflexivity || discriminate.
Qed.

(** A span rejected by some predicate, with a duration check that does
    not reject it, is dropped by a plain return. *)
Lemma on_end_drop (self : FilteringSpanProcessor E) (span : Span) :
  passes_min_duration (filter_criteria self) span = true ->
  all_predicates_pass (filter_criteria self) span = false ->
  on_end span self = Returned tt self.
Proof.
  destruct self as [e c]. case_criteria c; unfold_on_end;
    repeat case_test; reflexivity || discriminate.
Qed.

(** Whatever way a rejected span leaves [on_end] (return, or the
    division overflowing), the processor and its exporter are untouched. *)
Lemma on_end_fail_state (self : FilteringSpanProcessor E) (span : Span) :
  all_predicates_pass (filter_criteria self) span = false ->
  state_of (on_end span self) = self.
Proof.
  destruct self as [e c]. case_criteria c; unfold_on_end;
    repeat case_test; reflexivity || discriminate.
Qed.

Lemma exporter_outcome_on_end (self : FilteringSpanProcessor E) (span : Span) :
  exporter_outcome (on_end span self)
  = filtered_outcome (filter_criteria self) span (exporter self).
Proof.
  destruct self as [e c]. unfold filtered_outcome.
  case_criteria c; unfold_on_end; repeat case_test;
    try reflexivity; try discriminate;
    unfold on_exporter; cbn [exporter];
    destruct (export [span] e); reflexivity.
Qed.

End OnEnd.

Local Open Scope list_scope.

(** Forwarding through a recording exporter appends exactly the call
    [export([span])] to the log. *)
Lemma calls_after_forward {E} `{X : SpanExporter E}
    (self : FilteringSpanProcessor (Recorder E)) (span : Span) :
  calls_after (forward span self) = calls (exporter self) ++ [CallExport [span]].
Proof.
  unfold calls_after, forward, bind, on_exporter, ret.
  cbn [export Recorder_exporter]. unfold recording.
  destruct (export [span] (inner (exporter self))); reflexivity.
Qed.

(** The log after [on_end]: extended by [export([span])] exactly when all
    predicates pass. *)
Lemma calls_after_on_end {E} `{X : SpanExporter E}
    (self : FilteringSpanProcessor (Recorder E)) (span : Span) :
  calls_after (on_end span self)
  = calls (exporter self)
    ++ (if all_predicates_pass (filter_criteria self) span
        then [CallExport [span]] else []).
Proof.
  destruct (all_predicates_pass (filter_criteria self) span) eqn:Hp.
  - rewrite (on_end_pass _ _ Hp). apply calls_after_forward.
  - unfold calls_after. rewrite (on_end_fail_state _ _ Hp).
    symmetry. apply app_nil_r.
Qed.

(** ** Properties of [on_end] *)

(** The code's decision on a criteria dict is the specification's decision
    on the same dict with its falsy values removed. *)
Lemma all_predicates_pass_spec_unset_falsy (c : FilterCriteria) (s : Span) :
  all_predicates_pass c s = spec_all_predicates_pass (unset_falsy c) s.
Proof.
  destruct c as [inc ops md exo exk].
  unfold all_predicates_pass, spec_all_predicates_pass, unset_falsy,
    passes_include_names, passes_operation_names, passes_min_duration,
    passes_exclude_operations, passes_exclude_span_kinds,
    spec_passes_include_names, spec_passes_operation_names,
    spec_passes_min_duration, spec_passes_exclude_operations,
    spec_passes_exclude_span_kinds.
  cbn [include_names operation_names min_duration_ms exclude_operations
       exclude_span_kinds].
  f_equal; [f_equal; [f_equal; [f_equal|]|]|].
  - destruct inc as [[|n inc]|]; reflexivity.
  - destruct ops as [[|o ops]|]; reflexivity.
  - destruct md as [floor|]; [|reflexivity]. cbn [truthy_int].
    destruct (Z.eqb floor 0); reflexivity.
  - destruct exo as [[|o exo]|]; reflexivity.
  - destruct exk as [[|k exk]|]; reflexivity.
Qed.

(** C1, as stated, fails: with [operation_names] configured as the empty
    list, the predicate of the specification rejects every span, yet the
    guard of line 43 skips the block and the span is exported once. *)
Lemma empty_allow_list_exported_against_spec_predicates :
  ~ (forall (self : FilteringSpanProcessor (Recorder CountingState)) (span : Span),
        calls_after (on_end span self)
        = calls (exporter self)
          ++ (if spec_all_predicates_pass (filter_criteria self) span
              then [CallExport [span]] else [])).
Proof.
  intros Hclaim.
  specialize (Hclaim (init fresh_recorder (Some (only_operation_names [])))
                     span_without_operation).
  assert (Hcode : calls_after (on_end span_without_operation
                     (init fresh_recorder (Some (only_operation_names []))))
                  = [CallExport [span_without_operation]]) by reflexivity.
  assert (Hspec : spec_all_predicates_pass
                    (filter_criteria (init fresh_recorder (Some (only_operation_names []))))
                    span_without_operation = false) by reflexivity.
  rewrite Hcode, Hspec in Hclaim. discriminate Hclaim.
Qed.

(** C1, amended: one call of [on_end] makes exactly one call to the wrapped
    exporter's [export], with the batch [[span]], when every predicate
    whose criterion has a truthy value (a non-empty collection, a non-zero
    floor) passes on the span, and no exporter call at all otherwise; so
    the nested early returns implement the AND of the predicates the code
    applies, which are the predicates of the specification on the criteria
    with the falsy values removed.  Stated on the log of a recording
    exporter around an arbitrary exporter, and on the outcome for an
    arbitrary exporter. *)
Theorem on_end_exports_once_iff_all_pass {E} `{X : SpanExporter E} (span : Span) :
  (forall self : FilteringSpanProcessor (Recorder E),
      calls_after (on_end span self)
      = calls (exporter self)
        ++ (if all_predicates_pass (filter_criteria self) span
            then [CallExport [span]] else []))
  /\ (forall self : FilteringSpanProcessor E,
      if all_predicates_pass (filter_criteria self) span
      then on_end span self = forward span self
      else state_of (on_end span self) = self)
  /\ (forall c : FilterCriteria,
      all_predicates_pass c span = spec_all_predicates_pass (unset_falsy c) span).
Proof.
  split; [|split].
  - intros self. apply calls_after_on_end.
  - intros self.
    destruct (all_predicates_pass (filter_criteria self) span) eqn:Hp.
    + apply on_end_pass, Hp.
    + apply on_end_fail_state, Hp.
  - intros c. apply all_predicates_pass_spec_unset_falsy.
Qed.

(** C2: with no predicate set, either because the constructor got
    [filter_criteria=None] or because it got the empty dict, [on_end]
    forwards every span, unchanged, as the batch [[span]]. *)
Theorem on_end_without_criteria_forwards {E} `{X : SpanExporter E} (span : Span) :
  (forall e : E,
      on_end span (init e None) = forward span (init e None)
      /\ on_end span (init e (Some empty_criteria))
         = forward span (init e (Some empty_criteria)))
  /\ (forall r : Recorder E,
      calls_after (on_end span (init r None)) = calls r ++ [CallExport [span]]
      /\ calls_after (on_end span (init r (Some empty_criteria)))
         = calls r ++ [CallExport [span]]).
Proof.
  split.
  - intros e. split; apply on_end_pass; reflexivity.
  - intros r. split.
    + rewrite (on_end_pass (init r None) span eq_refl).
      apply calls_after_forward.
    + rewrite (on_end_pass (init r (Some empty_criteria)) span eq_refl).
      apply calls_after_forward.
Qed.

(** C3, as stated, fails: [operation_names] configured as the empty list is
    skipped by the truthiness guard of line 43, so a span without the
    operation attribute is exported. *)
Lemma absent_operation_empty_allow_list_exported :
  ~ (forall (self : FilteringSpanProcessor (Recorder CountingState)) (span : Span),
        is_Some (operation_names (filter_criteria self)) ->
        attributes span !! OPERATION_KEY = None ->
        calls_after (on_end span self) = calls (exporter self)).
Proof.
  intros Hclaim.
  specialize (Hclaim (init fresh_recorder (Some (only_operation_names [])))
                     span_without_operation).
  assert (Hcalls : calls_after (on_end span_without_operation
                     (init fresh_recorder (Some (only_operation_names []))))
                   = [CallExport [span_without_operation]]) by reflexivity.
  rewrite Hcalls in Hclaim.
  assert (Hnil : [CallExport [span_without_operation]] = @nil ExporterCall).
  { apply Hclaim; [eexists; reflexivity | reflexivity]. }
  discriminate Hnil.
Qed.

(** C3, amended: for a span without the operation attribute, a non-empty
    [operation_names] makes [on_end] return without exporting; the
    [exclude_operations] block never drops it, and with only
    [exclude_operations] configured [on_end] is the forwarding call.
    [on_end] returns normally in the first case and raises in the second
    only if the exporter's [export] does. *)
Theorem absent_operation_attribute_no_match {E} `{X : SpanExporter E}
    (self : FilteringSpanProcessor E) (span : Span) :
  attributes span !! OPERATION_KEY = None ->
  (truthy_list (operation_names (filter_criteria self)) = true ->
     on_end span self = Returned tt self)
  /\ filter_exclude_operations (filter_criteria self) span self = Returned false self
  /\ (forall ops, filter_criteria self = only_exclude_operations ops ->
        on_end span self = forward span self).
Proof.
  intros Habsent. split; [|split].
  - intros Hset. apply on_end_drop_early.
    unfold passes_operation_names.
    destruct (operation_names (filter_criteria self)) as [[|o ops]|];
      try discriminate Hset.
    rewrite Habsent. apply andb_false_r.
  - unfold filter_exclude_operations.
    destruct (exclude_operations (filter_criteria self)) as [[|o ops]|];
      cbn [truthy_list]; try reflexivity.
    rewrite Habsent. reflexivity.
  - intros ops Hc. apply on_end_pass. rewrite Hc.
    unfold all_predicates_pass, passes_exclude_operations; cbn.
    destruct ops; [reflexivity|]. rewrite Habsent. reflexivity.
Qed.

Lemma absent_operation_attribute_no_match_witness :
  attributes span_without_operation !! OPERATION_KEY = None
  /\ on_end span_without_operation
       (init fresh_exporter (Some (only_operation_names [AStr "chat"])))
     = Returned tt (init fresh_exporter (Some (only_operation_names [AStr "chat"])))
  /\ on_end span_without_operation
       (init fresh_exporter (Some (only_exclude_operations [AStr "debug_ping"])))
     = forward span_without_operation
         (init fresh_exporter (Some (only_exclude_operations [AStr "debug_ping"]))).
Proof.
  split; [reflexivity|].
  split.
  - apply (absent_operation_attribute_no_match
             (init fresh_exporter (Some (only_operation_names [AStr "chat"])))
             span_without_operation); reflexivity.
  - apply (absent_operation_attribute_no_match
             (init fresh_exporter (Some (only_exclude_operations [AStr "debug_ping"])))
             span_without_operation eq_refl) with (ops := [AStr "debug_ping"]).
    reflexivity.
Defined.

(** With only [include_names] configured and non-empty, [on_end] forwards
    exactly the spans whose name contains one of the substrings. *)
Lemma on_end_only_include_names {E} `{X : SpanExporter E}
    (e : E) (n : string) (names : list string) (span : Span) :
  let self := init e (Some (only_include_names (n :: names))) in
  (on_end span self = forward span self
   /\ exists sub pre post,
        In sub (n :: names) /\ name span = (pre ++ sub ++ post)%string)
  \/ (on_end span self = Returned tt self
      /\ ~ exists sub pre post,
             In sub (n :: names) /\ name span = (pre ++ sub ++ post)%string).
Proof.
  intros self.
  destruct (existsb (fun sub => str_contains sub (name span)) (n :: names)) eqn:Hex.
  - left. split.
    + apply on_end_pass. unfold all_predicates_pass, passes_include_names.
      cbn [self init filter_criteria truthy_dict only_include_names include_names].
      rewrite Hex. reflexivity.
    + apply existsb_exists in Hex. destruct Hex as [sub [Hin Hsub]].
      apply str_contains_iff in Hsub. destruct Hsub as [pre [post Hsplit]].
      exists sub, pre, post. split; assumption.
  - right. split.
    + apply on_end_drop_early. unfold passes_include_names.
      cbn [self init filter_criteria truthy_dict only_include_names include_names].
      rewrite Hex. reflexivity.
    + intros [sub [pre [post [Hin Hsplit]]]].
      assert (Htrue : existsb (fun sub => str_contains sub (name span)) (n :: names) = true).
      { apply existsb_exists. exists sub. split; [exact Hin|].
        apply str_contains_iff. exists pre, post. exact Hsplit. }
      rewrite Htrue in Hex. discriminate Hex.
Qed.

(** C4: with [include_names = ["chat"]] as the only criterion, a span named
    "execute_tool" is dropped without any export call and a span named
    "chat-completion" is forwarded; the containment test is case-sensitive,
    so "Chat-completion" is dropped.  In general the span is forwarded when
    its name splits around a copy of "chat", and dropped by a plain return
    otherwise. *)
Theorem include_names_chat {E} `{X : SpanExporter E} (e : E) (span : Span) :
  let self := init e (Some (only_include_names ["chat"])) in
  (name span = "execute_tool" -> on_end span self = Returned tt self)
  /\ (name span = "chat-completion" -> on_end span self = forward span self)
  /\ (name span = "Chat-completion" -> on_end span self = Returned tt self)
  /\ ((on_end span self = forward span self
       /\ exists pre post, name span = (pre ++ "chat" ++ post)%string)
      \/ (on_end span self = Returned tt self
          /\ ~ exists pre post, name span = (pre ++ "chat" ++ post)%string)).
Proof.
  intros self. split; [|split; [|split]]; try intros Hname.
  - apply on_end_drop_early. unfold passes_include_names.
    cbn [self init filter_criteria truthy_dict only_include_names include_names].
    rewrite Hname. reflexivity.
  - apply on_end_pass. unfold all_predicates_pass, passes_include_names.
    cbn [self init filter_criteria truthy_dict only_include_names include_names].
    rewrite Hname. reflexivity.
  - apply on_end_drop_early. unfold passes_include_names.
    cbn [self init filter_criteria truthy_dict only_include_names include_names].
    rewrite Hname. reflexivity.
  - destruct (on_end_only_include_names e "chat" [] span) as [[Hf Hsub] | [Hd Hsub]].
    + left. split; [exact Hf|].
      destruct Hsub as [sub [pre [post [[<- | []] Hsplit]]]].
      exists pre, post. exact Hsplit.
    + right. split; [exact Hd|].
      intros [pre [post Hsplit]]. apply Hsub.
      exists "chat", pre, post. split; [left; reflexivity | exact Hsplit].
Qed.

Lemma include_names_chat_witness :
  on_end span_execute_tool (init fresh_exporter (Some (only_include_names ["chat"])))
  = Returned tt (init fresh_exporter (Some (only_include_names ["chat"])))
  /\ on_end span_without_operation (init fresh_exporter (Some (only_include_names ["chat"])))
     = forward span_without_operation
         (init fresh_exporter (Some (only_include_names ["chat"]))).
Proof.
  split.
  - exact (proj1 (include_names_chat fresh_exporter span_execute_tool) eq_refl).
  - exact (proj1 (proj2 (include_names_chat fresh_exporter span_without_operation))
             eq_refl).
Defined.

(** The quotients at the boundary, as binary64 floats: 99.0, 99.999999
    (rounded) and 100.0. *)
Lemma truediv_99ms :
  int_truediv 99000000 1000000 = inr (S754_finite false 6966505673588736 (-46)).
Proof. vm_compute. reflexivity. Qed.

Lemma truediv_100ms :
  int_truediv 100000000 1000000 = inr (S754_finite false 7036874417766400 (-46)).
Proof. vm_compute. reflexivity. Qed.

Lemma truediv_just_below_100ms :
  int_truediv 99999999 1000000 = inr (S754_finite false 7036874347397656 (-46)).
Proof. vm_compute. reflexivity. Qed.

(** C5: with [min_duration_ms = 100] as the only criterion, the duration in
    milliseconds is the float quotient of [end_time - start_time] by
    [1_000_000], and the span is dropped exactly when that is less than 100:
    a span of 99 ms (or of 1 ns less than 100 ms) is dropped, a span of
    exactly 100 ms is forwarded. *)
Theorem min_duration_100_boundary {E} `{X : SpanExporter E} (e : E) (span : Span) :
  let self := init e (Some (only_min_duration_ms 100)) in
  (end_time span - start_time span = 99000000 ->
     on_end span self = Returned tt self)
  /\ (end_time span - start_time span = 100000000 ->
        on_end span self = forward span self)
  /\ (end_time span - start_time span = 99999999 ->
        on_end span self = Returned tt self)
  /\ filter_min_duration (filter_criteria self) span self
     = match int_truediv (end_time span - start_time span) 1000000 with
       | inr duration_ms => Returned (float_lt_int duration_ms 100) self
       | inl x => Raised x self
       end.
Proof.
  intros self. subst self.
  cbv [init only_min_duration_ms truthy_dict include_names operation_names
       min_duration_ms exclude_operations exclude_span_kinds].
  repeat split.
  - intros Hd. unfold_on_end. rewrite Hd, truediv_99ms. reflexivity.
  - intros Hd. unfold_on_end. rewrite Hd, truediv_100ms. reflexivity.
  - intros Hd. unfold_on_end. rewrite Hd, truediv_just_below_100ms. reflexivity.
  - unfold_on_end. simpl (Z.eqb 100 0).
    destruct (int_truediv (end_time span - start_time span) 1000000); reflexivity.
Qed.

Lemma min_duration_100_boundary_witness :
  on_end span_99ms (init fresh_exporter (Some (only_min_duration_ms 100)))
  = Returned tt (init fresh_exporter (Some (only_min_duration_ms 100)))
  /\ on_end span_100ms (init fresh_exporter (Some (only_min_duration_ms 100)))
     = forward span_100ms (init fresh_exporter (Some (only_min_duration_ms 100))).
Proof.
  split.
  - exact (proj1 (min_duration_100_boundary fresh_exporter span_99ms) eq_refl).
  - exact (proj1 (proj2 (min_duration_100_boundary fresh_exporter span_100ms))
             eq_refl).
Defined.

(** C6: with [exclude_span_kinds = [CLIENT]], whatever the other criteria
    are: a CLIENT span never reaches the exporter, and [on_end] returns
    normally for it when the other predicates pass; a span of another kind
    is not stopped by the kind block, and [on_end] treats it as it would
    with [exclude_span_kinds] removed. *)
Theorem exclude_span_kinds_client {E} `{X : SpanExporter E}
    (self : FilteringSpanProcessor E) (span : Span) :
  exclude_span_kinds (filter_criteria self) = Some [CLIENT] ->
  (kind span = CLIENT ->
     state_of (on_end span self) = self
     /\ (passes_include_names (filter_criteria self) span
         && passes_operation_names (filter_criteria self) span
         && passes_min_duration (filter_criteria self) span
         && passes_exclude_operations (filter_criteria self) span = true ->
         on_end span self = Returned tt self))
  /\ (kind span <> CLIENT ->
        filter_exclude_span_kinds (filter_criteria self) span self = Returned false self
        /\ exporter_outcome (on_end span self)
           = exporter_outcome
               (on_end span
                  (with_criteria (with_exclude_span_kinds None (filter_criteria self)) self))).
Proof.
  intros Hkinds. split.
  - intros Hclient.
    assert (Hfail : all_predicates_pass (filter_criteria self) span = false).
    { unfold all_predicates_pass, passes_exclude_span_kinds.
      rewrite Hkinds, Hclient. apply andb_false_r. }
    split.
    + apply on_end_fail_state, Hfail.
    + intros Hothers. apply on_end_drop; [|exact Hfail].
      destruct (passes_min_duration (filter_criteria self) span); [reflexivity|].
      rewrite andb_false_r in Hothers. discriminate Hothers.
  - intros Hother.
    assert (Hno : existsb (SpanKind_eqb (kind span)) [CLIENT] = false).
    { destruct (kind span); try reflexivity. congruence. }
    split.
    + unfold filter_exclude_span_kinds, getitem, bind, ret.
      rewrite Hkinds. cbn [truthy_list]. rewrite Hno. reflexivity.
    + rewrite !exporter_outcome_on_end.
      unfold filtered_outcome, passes_exclude_span_kinds.
      rewrite Hkinds, Hno.
      destruct self as [e c]. destruct c. reflexivity.
Qed.

Lemma exclude_span_kinds_client_witness :
  on_end span_100ms (init fresh_exporter (Some criteria_exclude_client))
  = Returned tt (init fresh_exporter (Some criteria_exclude_client))
  /\ exporter_outcome
       (on_end span_without_operation (init fresh_exporter (Some criteria_exclude_client)))
     = exporter_outcome
         (on_end span_without_operation
            (init fresh_exporter (Some (only_include_names ["chat"])))).
Proof.
  split.
  - exact (proj2 (proj1 (exclude_span_kinds_client
                           (init fresh_exporter (Some criteria_exclude_client))
                           span_100ms eq_refl) eq_refl) eq_refl).
  - refine (proj2 (proj2 (exclude_span_kinds_client
                            (init fresh_exporter (Some criteria_exclude_client))
                            span_without_operation eq_refl) _)).
    discriminate.
Defined.

(** ** Properties of [shutdown] and [force_flush] *)

(** A method call on the exporter, seen from the processor: the exporter
    sees exactly that call, and [filter_criteria] is kept. *)
Lemma on_exporter_spec {E A} (m : M E A) (self : FilteringSpanProcessor E) :
  exporter_outcome (on_exporter m self) = m (exporter self)
  /\ filter_criteria (state_of (on_exporter m self)) = filter_criteria self.
Proof.
  unfold on_exporter. destruct (m (exporter self)); split; reflexivity.
Qed.

(** C7: [shutdown] is exactly one call of the exporter's [shutdown] and
    keeps [filter_criteria]; if the exporter's [shutdown] is idempotent,
    the processor's [shutdown] returns normally, and a second call returns
    normally and changes nothing. *)
Theorem shutdown_delegates_and_idempotent {E} `{X : SpanExporter E} :
  (forall self : FilteringSpanProcessor E,
      exporter_outcome (shutdown self) = exporter_shutdown (exporter self)
      /\ filter_criteria (state_of (shutdown self)) = filter_criteria self)
  /\ (forall self : FilteringSpanProcessor (Recorder E),
        calls_after (shutdown self) = calls (exporter self) ++ [CallShutdown])
  /\ (shutdown_idempotent E ->
      forall self : FilteringSpanProcessor E,
        exists self', shutdown self = Returned tt self'
                      /\ shutdown self' = Returned tt self').
Proof.
  split; [|split].
  - intros self. apply on_exporter_spec.
  - intros self. unfold calls_after, shutdown, on_exporter.
    cbn [exporter_shutdown Recorder_exporter]. unfold recording.
    destruct (exporter_shutdown (inner (exporter self))); reflexivity.
  - intros Hidem [e c]. destruct (Hidem e) as [e' [H1 H2]].
    exists {| exporter := e'; filter_criteria := c |}.
    unfold shutdown, on_exporter. cbn [exporter filter_criteria].
    rewrite H1, H2. split; reflexivity.
Qed.

Lemma Counting_shutdown_idempotent : shutdown_idempotent CountingState.
Proof.
  intros [n b]. exists {| exported := n; closed := true |}.
  split; reflexivity.
Qed.

Lemma shutdown_delegates_and_idempotent_witness :
  exists self',
    shutdown (init fresh_exporter None) = Returned tt self'
    /\ shutdown self' = Returned tt self'.
Proof.
  exact (proj2 (proj2 shutdown_delegates_and_idempotent)
           Counting_shutdown_idempotent (init fresh_exporter None)).
Defined.

(** C8: [force_flush(t)] is exactly one call of the exporter's
    [force_flush] with the same [t]; its outcome (the returned flag, or the
    exception) is the exporter's, and [filter_criteria] is kept.  Without an
    argument the timeout is 30000. *)
Theorem force_flush_delegates {E} `{X : SpanExporter E} (t : Z) :
  (forall self : FilteringSpanProcessor E,
      exporter_outcome (force_flush (Some t) self)
      = exporter_force_flush t (exporter self)
      /\ filter_criteria (state_of (force_flush (Some t) self)) = filter_criteria self)
  /\ (forall self : FilteringSpanProcessor (Recorder E),
        calls_after (force_flush (Some t) self)
        = calls (exporter self) ++ [CallForceFlush t])
  /\ (forall self : FilteringSpanProcessor E,
        force_flush None self = force_flush (Some 30000) self).
Proof.
  split; [|split].
  - intros self. apply on_exporter_spec.
  - intros self. unfold calls_after, force_flush, on_exporter.
    cbn [exporter_force_flush Recorder_exporter]. unfold recording.
    destruct (exporter_force_flush t (inner (exporter self))); reflexivity.
  - reflexivity.
Qed.

(** ** The operation key and falsy criteria *)

(** The predicates read a span only through its name, kind, duration and
    the attribute stored under [OPERATION_KEY]. *)
Lemma all_predicates_pass_ext (c : FilterCriteria) (s s' : Span) :
  name s = name s' -> kind s = kind s' ->
  start_time s = start_time s' -> end_time s = end_time s' ->
  attributes s !! OPERATION_KEY = attributes s' !! OPERATION_KEY ->
  all_predicates_pass c s = all_predicates_pass c s'.
Proof.
  intros Hn Hk Hs He Ha.
  unfold all_predicates_pass, passes_include_names, passes_operation_names,
    passes_min_duration, passes_exclude_operations, passes_exclude_span_kinds.
  rewrite Hn, Hk, Hs, He, Ha. reflexivity.
Qed.

(** C9: both operation blocks look the operation up under the one key
    "gen_ai.operation.name", and under no other.  What each block answers
    is decided by the value found under that key: the allow-list block
    drops the span exactly when that value is not in [operation_names], the
    deny-list block exactly when it is in [exclude_operations], and
    [on_end] then exports nothing.  Two spans that differ only in their
    attributes, and agree on the value (or absence) under that key, get the
    same answer from both blocks and the same forward-or-drop decision from
    [on_end]: an operation stored under any other key is not seen. *)
Theorem operation_filters_read_fixed_key {E} `{X : SpanExporter E}
    (self : FilteringSpanProcessor (Recorder E)) (s s' : Span) :
  name s = name s' -> kind s = kind s' ->
  start_time s = start_time s' -> end_time s = end_time s' ->
  attributes s !! "gen_ai.operation.name" = attributes s' !! "gen_ai.operation.name" ->
  filter_operation_names (filter_criteria self) s self
  = filter_operation_names (filter_criteria self) s' self
  /\ filter_exclude_operations (filter_criteria self) s self
     = filter_exclude_operations (filter_criteria self) s' self
  /\ (exists forwarded : bool,
        calls_after (on_end s self)
        = calls (exporter self) ++ (if forwarded then [CallExport [s]] else [])
        /\ calls_after (on_end s' self)
           = calls (exporter self) ++ (if forwarded then [CallExport [s']] else []))
  /\ (forall o ops, operation_names (filter_criteria self) = Some (o :: ops) ->
        filter_operation_names (filter_criteria self) s self
        = Returned (negb (py_in (attributes s !! "gen_ai.operation.name") (o :: ops))) self
        /\ (py_in (attributes s !! "gen_ai.operation.name") (o :: ops) = false ->
            calls_after (on_end s self) = calls (exporter self)))
  /\ (forall o ops, exclude_operations (filter_criteria self) = Some (o :: ops) ->
        filter_exclude_operations (filter_criteria self) s self
        = Returned (py_in (attributes s !! "gen_ai.operation.name") (o :: ops)) self
        /\ (py_in (attributes s !! "gen_ai.operation.name") (o :: ops) = true ->
            calls_after (on_end s self) = calls (exporter self))).
Proof.
  intros Hn Hk Hs He Ha. split; [|split; [|split; [|split]]].
  - unfold filter_operation_names, OPERATION_KEY. rewrite Ha. reflexivity.
  - unfold filter_exclude_operations, OPERATION_KEY. rewrite Ha. reflexivity.
  - exists (all_predicates_pass (filter_criteria self) s). split.
    + apply calls_after_on_end.
    + rewrite (all_predicates_pass_ext _ s s' Hn Hk Hs He Ha).
      apply calls_after_on_end.
  - intros o ops Hops. split.
    + unfold filter_operation_names, getitem, bind, ret, OPERATION_KEY.
      rewrite Hops. reflexivity.
    + intros Hmiss. rewrite calls_after_on_end.
      unfold all_predicates_pass, passes_operation_names, OPERATION_KEY.
      rewrite Hops, Hmiss, andb_false_r. apply app_nil_r.
  - intros o ops Hops. split.
    + unfold filter_exclude_operations, getitem, bind, ret, OPERATION_KEY.
      rewrite Hops. reflexivity.
    + intros Hhit. rewrite calls_after_on_end.
      unfold all_predicates_pass, passes_exclude_operations, OPERATION_KEY.
      rewrite Hops, Hhit. cbn [negb]. rewrite andb_false_r. apply app_nil_r.
Qed.

Lemma operation_filters_read_fixed_key_witness :
  (exists forwarded : bool,
      calls_after (on_end span_without_operation
                     (init fresh_recorder (Some (only_exclude_operations [AStr "debug_ping"]))))
      = (if forwarded then [CallExport [span_without_operation]] else [])
      /\ calls_after (on_end span_operation_elsewhere
                        (init fresh_recorder (Some (only_exclude_operations [AStr "debug_ping"]))))
         = (if forwarded then [CallExport [span_operation_elsewhere]] else []))
  /\ calls_after (on_end span_debug_ping
                    (init fresh_recorder (Some (only_exclude_operations [AStr "debug_ping"]))))
     = []
  /\ calls_after (on_end span_operation_elsewhere
                    (init fresh_recorder (Some (only_operation_names [AStr "debug_ping"]))))
     = [].
Proof.
  split; [|split].
  - exact (proj1 (proj2 (proj2 (operation_filters_read_fixed_key
                           (init fresh_recorder (Some (only_exclude_operations [AStr "debug_ping"])))
                           span_without_operation span_operation_elsewhere
                           eq_refl eq_refl eq_refl eq_refl eq_refl)))).
  - exact (proj2 (proj2 (proj2 (proj2 (proj2 (operation_filters_read_fixed_key
                           (init fresh_recorder (Some (only_exclude_operations [AStr "debug_ping"])))
                           span_debug_ping span_debug_ping
                           eq_refl eq_refl eq_refl eq_refl eq_refl))))
                    (AStr "debug_ping") [] eq_refl) eq_refl).
  - exact (proj2 (proj1 (proj2 (proj2 (proj2 (operation_filters_read_fixed_key
                           (init fresh_recorder (Some (only_operation_names [AStr "debug_ping"])))
                           span_operation_elsewhere span_operation_elsewhere
                           eq_refl eq_refl eq_refl eq_refl eq_refl))))
                    (AStr "debug_ping") [] eq_refl) eq_refl).
Defined.

Lemma same_or_falsy_list_unset {A} (v : option (list A)) :
  same_or_falsy_list v (if truthy_list v then v else None).
Proof.
  destruct v as [[|a l]|]; cbn; [right | left | left]; auto.
Qed.

Lemma same_or_falsy_int_unset (v : option Z) :
  same_or_falsy_int v (if truthy_int v then v else None).
Proof.
  unfold same_or_falsy_int. destruct (truthy_int v) eqn:Hv; [left | right]; auto.
Qed.

Lemma unset_falsy_same (c : FilterCriteria) : same_up_to_falsy c (unset_falsy c).
Proof.
  unfold same_up_to_falsy, unset_falsy; cbn.
  repeat split; auto using same_or_falsy_list_unset, same_or_falsy_int_unset.
Qed.

Ltac falsy_cases H :=
  destruct H as [-> | [? ?]]; [reflexivity |];
  repeat match goal with
    | H : truthy_list ?v = false |- _ => destruct v as [[|? ?]|]; try discriminate H; clear H
    | H : truthy_int ?v = false |- _ =>
        destruct v as [?|]; cbn in H;
        [apply negb_false_iff in H; try rewrite H | clear H]
    end; reflexivity.

Lemma filtered_outcome_falsy {E} `{X : SpanExporter E}
    (c c' : FilterCriteria) (span : Span) (e : E) :
  same_up_to_falsy c c' ->
  filtered_outcome c span e = filtered_outcome c' span e.
Proof.
  intros (H1 & H2 & H3 & H4 & H5).
  assert (P1 : passes_include_names c span = passes_include_names c' span).
  { unfold passes_include_names. falsy_cases H1. }
  assert (P2 : passes_operation_names c span = passes_operation_names c' span).
  { unfold passes_operation_names. falsy_cases H2. }
  assert (P3 : passes_min_duration c span = passes_min_duration c' span).
  { unfold passes_min_duration. falsy_cases H3. }
  assert (P4 : passes_exclude_operations c span = passes_exclude_operations c' span).
  { unfold passes_exclude_operations. falsy_cases H4. }
  assert (P5 : passes_exclude_span_kinds c span = passes_exclude_span_kinds c' span).
  { unfold passes_exclude_span_kinds. falsy_cases H5. }
  unfold filtered_outcome. rewrite P1, P2, P3, P4, P5. reflexivity.
Qed.

(** C10: a criterion whose value is falsy (an empty list, or 0 for
    [min_duration_ms]) is skipped exactly as an absent one: two processors
    on the same exporter whose criteria differ only by falsy values act
    alike on every span, in particular a dict and the same dict with its
    falsy values removed; and [operation_names = []] alone forwards every
    span. *)
Theorem falsy_criterion_is_unset {E} `{X : SpanExporter E} (span : Span) :
  (forall (self : FilteringSpanProcessor E) (c' : FilterCriteria),
      same_up_to_falsy (filter_criteria self) c' ->
      exporter_outcome (on_end span self)
      = exporter_outcome (on_end span (with_criteria c' self)))
  /\ (forall self : FilteringSpanProcessor E,
        exporter_outcome (on_end span self)
        = exporter_outcome
            (on_end span (with_criteria (unset_falsy (filter_criteria self)) self)))
  /\ (forall e : E,
        on_end span (init e (Some (only_operation_names [])))
        = forward span (init e (Some (only_operation_names [])))).
Proof.
  split; [|split].
  - intros self c' Hsame. rewrite !exporter_outcome_on_end.
    apply filtered_outcome_falsy, Hsame.
  - intros self. rewrite !exporter_outcome_on_end.
    apply filtered_outcome_falsy, unset_falsy_same.
  - intros e. apply on_end_pass. reflexivity.
Qed.

Lemma all_falsy_same_as_empty : same_up_to_falsy all_falsy_criteria empty_criteria.
Proof.
  unfold same_up_to_falsy, same_or_falsy_list, same_or_falsy_int; cbn.
  repeat split; right; split; reflexivity.
Defined.

Lemma falsy_criterion_is_unset_witness :
  exporter_outcome
    (on_end span_execute_tool (init fresh_exporter (Some all_falsy_criteria)))
  = exporter_outcome
      (on_end span_execute_tool
         (with_criteria empty_criteria (init fresh_exporter (Some all_falsy_criteria)))).
Proof.
  exact (proj1 (falsy_criterion_is_unset span_execute_tool)
           (init fresh_exporter (Some all_falsy_criteria)) empty_criteria
           all_falsy_same_as_empty).
Defined.

(** ** Further properties of [on_end] *)



(** [on_end] keeps [filter_criteria], whichever way it ends. *)
Lemma on_end_keeps_criteria {E} `{X : SpanExporter E}
    (self : FilteringSpanProcessor E) (span : Span) :
  filter_criteria (state_of (on_end span self)) = filter_criteria self.
Proof.
  destruct (all_predicates_pass (filter_criteria self) span) eqn:Hp.
  - rewrite (on_end_pass _ _ Hp). unfold forward, bind, on_exporter, ret.
    destruct (export [span] (exporter self)); reflexivity.
  - rewrite (on_end_fail_state _ _ Hp). reflexivity.
Qed.



(** X2: for a span that passes, the value returned by [export] is thrown
    away: [on_end] returns [None] whether the exporter answered [SUCCESS]
    or [FAILURE], with the exporter in the state [export] left; an exception
    raised by [export] leaves [on_end] as it is. *)
Theorem on_end_discards_export_result {E} `{X : SpanExporter E}
    (self : FilteringSpanProcessor E) (span : Span) :
  all_predicates_pass (filter_criteria self) span = true ->
  (forall r e', export [span] (exporter self) = Returned r e' ->
      on_end span self
      = Returned tt {| exporter := e'; filter_criteria := filter_criteria self |})
  /\ (forall x e', export [span] (exporter self) = Raised x e' ->
        on_end span self
        = Raised x {| exporter := e'; filter_criteria := filter_criteria self |}).
Proof.
  intros Hp. rewrite (on_end_pass _ _ Hp).
  unfold forward, bind, on_exporter, ret.
  split; intros ? e' Hexp; rewrite Hexp; reflexivity.
Qed.

Lemma on_end_discards_export_result_witness :
  on_end (X := Rejecting_exporter) span_execute_tool (init tt None)
  = Returned tt (init tt None)
  /\ on_end (X := Broken_exporter) span_execute_tool (init tt None)
     = Raised (ExporterError "connection lost") (init tt None).
Proof.
  split.
  - exact (proj1 (on_end_discards_export_result (X := Rejecting_exporter)
                    (init tt None) span_execute_tool eq_refl)
             FAILURE tt eq_refl).
  - exact (proj2 (on_end_discards_export_result (X := Broken_exporter)
                    (init tt None) span_execute_tool eq_refl)
             (ExporterError "connection lost") tt eq_refl).
Defined.

Lemma on_end_each_keeps_criteria {E} `{X : SpanExporter E}
    (spans : list Span) (self : FilteringSpanProcessor E) :
  filter_criteria (on_end_each spans self) = filter_criteria self.
Proof.
  revert self. induction spans as [|span spans IH]; intros self; [reflexivity|].
  unfold on_end_each in *. cbn [fold_left].
  rewrite IH. apply on_end_keeps_criteria.
Qed.

(** X3: over any sequence of [on_end] calls, the exporter receives exactly
    the spans on which all predicates pass, in the order of the calls, each
    as a batch of its own; and [filter_criteria] is the same at the end. *)
Theorem on_end_each_exports_passing_spans {E} `{X : SpanExporter E}
    (spans : list Span) (self : FilteringSpanProcessor (Recorder E)) :
  calls (exporter (on_end_each spans self))
  = calls (exporter self)
    ++ List.map (fun span => CallExport [span])
         (List.filter (all_predicates_pass (filter_criteria self)) spans)
  /\ filter_criteria (on_end_each spans self) = filter_criteria self.
Proof.
  split; [|apply on_end_each_keeps_criteria].
  revert self. induction spans as [|span spans IH]; intros self.
  - cbn. symmetry. apply app_nil_r.
  - unfold on_end_each in *. cbn [fold_left List.filter].
    rewrite IH, on_end_keeps_criteria.
    pose proof (calls_after_on_end self span) as Hstep.
    unfold calls_after in Hstep. rewrite Hstep.
    destruct (all_predicates_pass (filter_criteria self) span); cbn [List.map].
    + rewrite <- app_assoc. reflexivity.
    + rewrite app_nil_r. reflexivity.
Qed.

(** X4: the processor keeps no record of having been shut down: an
    [on_end] that follows [shutdown] filters and forwards as before, so the
    exporter sees [shutdown()] and then [export([span])] for a passing
    span. *)
Theorem on_end_after_shutdown_still_exports {E} `{X : SpanExporter E}
    (self : FilteringSpanProcessor (Recorder E)) (span : Span) :
  calls_after (on_end span (state_of (shutdown self)))
  = calls (exporter self) ++ [CallShutdown]
    ++ (if all_predicates_pass (filter_criteria self) span
        then [CallExport [span]] else []).
Proof.
  rewrite calls_after_on_end.
  assert (Hc : filter_criteria (state_of (shutdown self)) = filter_criteria self).
  { apply on_exporter_spec. }
  assert (Hl : calls (exporter (state_of (shutdown self)))
               = calls (exporter self) ++ [CallShutdown]).
  { unfold shutdown, on_exporter.
    cbn [exporter_shutdown Recorder_exporter]. unfold recording.
    destruct (exporter_shutdown (inner (exporter self))); reflexivity. }
  rewrite Hc, Hl, <- app_assoc. reflexivity.
Qed.

Lemma passes_keys_removed (c' c : FilterCriteria) (span : Span) :
  keys_removed c' c ->
  all_predicates_pass c span = true ->
  all_predicates_pass c' span = true.
Proof.
  intros (H1 & H2 & H3 & H4 & H5).
  unfold all_predicates_pass, passes_include_names, passes_operation_names,
    passes_min_duration, passes_exclude_operations, passes_exclude_span_kinds.
  destruct H1 as [-> | ->], H2 as [-> | ->], H3 as [-> | ->],
    H4 as [-> | ->], H5 as [-> | ->];
    rewrite !andb_true_iff; intros ((((P1 & P2) & P3) & P4) & P5);
    repeat split; assumption || reflexivity.
Qed.

Lemma exported_means_all_pass {E} `{X : SpanExporter E}
    (self : FilteringSpanProcessor (Recorder E)) (span : Span) :
  calls_after (on_end span self) = calls (exporter self) ++ [CallExport [span]]
  <-> all_predicates_pass (filter_criteria self) span = true.
Proof.
  rewrite calls_after_on_end.
  destruct (all_predicates_pass (filter_criteria self) span); split; intros H;
    try reflexivity.
  - apply app_inv_head in H. discriminate H.
  - discriminate H.
Qed.

(** X5: removing keys from [filter_criteria] never turns a forwarded span
    into a dropped one: a span exported under a criteria dict is exported
    under every dict obtained from it by removing keys. *)
Theorem removing_criteria_never_drops {E} `{X : SpanExporter E}
    (self : FilteringSpanProcessor (Recorder E)) (c' : FilterCriteria) (span : Span) :
  keys_removed c' (filter_criteria self) ->
  calls_after (on_end span self) = calls (exporter self) ++ [CallExport [span]] ->
  calls_after (on_end span (with_criteria c' self))
  = calls (exporter self) ++ [CallExport [span]].
Proof.
  intros Hrem Hexp.
  apply exported_means_all_pass in Hexp.
  apply (exported_means_all_pass (with_criteria c' self) span).
  apply (passes_keys_removed c' (filter_criteria self)); assumption.
Qed.

Lemma keys_removed_sample :
  keys_removed (only_include_names ["chat"]) criteria_exclude_client.
Proof.
  unfold keys_removed, absent_or_same. cbn.
  repeat split; (left; reflexivity) || (right; reflexivity).
Defined.

Lemma removing_criteria_never_drops_witness :
  calls_after (on_end span_without_operation
                 (with_criteria (only_include_names ["chat"])
                    (init fresh_recorder (Some criteria_exclude_client))))
  = [CallExport [span_without_operation]].
Proof.
  exact (removing_criteria_never_drops
           (init fresh_recorder (Some criteria_exclude_client))
           (only_include_names ["chat"]) span_without_operation
           keys_removed_sample eq_refl).
Defined.

(** ** Each criterion on its own *)

(** X6: with a non-empty [include_names] as the only criterion, a span is
    exported exactly when its name contains one of the substrings. *)
Theorem include_names_exports_iff_substring {E} `{X : SpanExporter E}
    (r : Recorder E) (n : string) (names : list string) (span : Span) :
  calls_after (on_end span (init r (Some (only_include_names (n :: names)))))
  = calls r ++ [CallExport [span]]
  <-> exists sub pre post,
        In sub (n :: names) /\ name span = (pre ++ sub ++ post)%string.
Proof.
  destruct (on_end_only_include_names r n names span) as [[Hf Hsub] | [Hd Hsub]].
  - split; [intros _; exact Hsub | intros _].
    rewrite Hf. apply calls_after_forward.
  - split; [|intros H; contradiction].
    rewrite Hd. unfold calls_after. cbn [state_of init exporter].
    intros H. rewrite <- (app_nil_r (calls r)) in H at 1.
    apply app_inv_head in H. discriminate H.
Qed.

Lemma str_contains_empty_needle (hay : string) : str_contains "" hay = true.
Proof. destruct hay; reflexivity. Qed.

Lemma str_contains_empty_hay (needle : string) :
  str_contains needle "" = true -> needle = ""%string.
Proof. destruct needle; [reflexivity | discriminate]. Qed.

(** X7: the empty string is a substring of every name, so an
    [include_names] that contains it lets every span past the name block;
    and a span with an empty name passes a non-empty [include_names] only
    through the empty string. *)
Theorem include_names_empty_strings {E} `{X : SpanExporter E}
    (self : FilteringSpanProcessor E) (names : list string) (span : Span) :
  include_names (filter_criteria self) = Some names ->
  (In ""%string names ->
     filter_include_names (filter_criteria self) span self = Returned false self)
  /\ (names <> [] -> ~ In ""%string names -> name span = ""%string ->
        on_end span self = Returned tt self).
Proof.
  intros Hnames. split.
  - intros Hin. unfold filter_include_names, getitem, bind, ret.
    rewrite Hnames. destruct names as [|n names]; [destruct Hin|].
    cbn [truthy_list].
    assert (Hex : existsb (fun sub => str_contains sub (name span)) (n :: names) = true).
    { apply existsb_exists. exists ""%string.
      split; [exact Hin | apply str_contains_empty_needle]. }
    rewrite Hex. reflexivity.
  - intros Hne Hnotin Hname. apply on_end_drop_early.
    unfold passes_include_names. rewrite Hnames.
    destruct names as [|n names]; [congruence|].
    destruct (existsb (fun sub => str_contains sub (name span)) (n :: names)) eqn:Hex;
      [|reflexivity].
    apply existsb_exists in Hex. destruct Hex as [sub [Hin Hsub]].
    rewrite Hname in Hsub. apply str_contains_empty_hay in Hsub.
    subst sub. contradiction.
Qed.

Lemma include_names_empty_strings_witness :
  filter_include_names (only_include_names ["chat"; ""]) span_execute_tool
    (init fresh_exporter (Some (only_include_names ["chat"; ""])))
  = Returned false (init fresh_exporter (Some (only_include_names ["chat"; ""])))
  /\ on_end span_unnamed (init fresh_exporter (Some (only_include_names ["chat"])))
     = Returned tt (init fresh_exporter (Some (only_include_names ["chat"]))).
Proof.
  split.
  - apply (proj1 (include_names_empty_strings
                    (init fresh_exporter (Some (only_include_names ["chat"; ""])))
                    ["chat"; ""] span_execute_tool eq_refl)).
    right. left. reflexivity.
  - apply (proj2 (include_names_empty_strings
                    (init fresh_exporter (Some (only_include_names ["chat"])))
                    ["chat"] span_unnamed eq_refl)).
    + discriminate.
    + intros [H | []]. discriminate H.
    + reflexivity.
Defined.

(** For a text value, Python's [in] on a list of attribute values is list
    membership. *)
Lemma py_in_text (s : string) (lst : list AttrValue) :
  py_in (Some (AStr s)) lst = true <-> In (AStr s) lst.
Proof.
  unfold py_in. rewrite existsb_exists. split.
  - intros [v [Hin Heq]]. destruct v as [t| |]; try discriminate Heq.
    apply String.eqb_eq in Heq. subst t. exact Hin.
  - intros Hin. exists (AStr s). split; [exact Hin|].
    apply String.eqb_refl.
Qed.

(** X8: with a non-empty [operation_names] as the only criterion, a span
    whose operation attribute is a text is exported exactly when that text
    is in the list. *)
Theorem operation_names_exports_iff_listed {E} `{X : SpanExporter E}
    (r : Recorder E) (o : AttrValue) (ops : list AttrValue)
    (span : Span) (s : string) :
  attributes span !! "gen_ai.operation.name" = Some (AStr s) ->
  calls_after (on_end span (init r (Some (only_operation_names (o :: ops)))))
  = calls r ++ [CallExport [span]]
  <-> In (AStr s) (o :: ops).
Proof.
  intros Hattr.
  rewrite (exported_means_all_pass (init r (Some (only_operation_names (o :: ops)))) span).
  rewrite <- py_in_text.
  unfold all_predicates_pass, passes_include_names, passes_operation_names,
    passes_min_duration, passes_exclude_operations, passes_exclude_span_kinds,
    OPERATION_KEY.
  cbn [init filter_criteria truthy_dict only_operation_names include_names
       operation_names min_duration_ms exclude_operations exclude_span_kinds].
  rewrite Hattr, !andb_true_r. reflexivity.
Qed.

Lemma operation_names_exports_iff_listed_witness :
  calls_after (on_end span_chat_operation
                 (init fresh_recorder
                    (Some (only_operation_names [AStr "chat"; AStr "execute_tool"]))))
  = [CallExport [span_chat_operation]].
Proof.
  apply (operation_names_exports_iff_listed fresh_recorder
           (AStr "chat") [AStr "execute_tool"] span_chat_operation "chat" eq_refl).
  left. reflexivity.
Defined.

(** X9: the deny-list wins over everything else: a span whose operation
    attribute is a text listed in [exclude_operations] never reaches the
    exporter, whatever the other criteria are; with [exclude_operations] as
    the only criterion, a span whose operation is not listed is forwarded. *)
Theorem excluded_operation_never_exported {E} `{X : SpanExporter E}
    (span : Span) (s : string) :
  attributes span !! "gen_ai.operation.name" = Some (AStr s) ->
  (forall (self : FilteringSpanProcessor E) (ops : list AttrValue),
      exclude_operations (filter_criteria self) = Some ops ->
      In (AStr s) ops ->
      state_of (on_end span self) = self)
  /\ (forall (e : E) (ops : list AttrValue),
        ~ In (AStr s) ops ->
        on_end span (init e (Some (only_exclude_operations ops)))
        = forward span (init e (Some (only_exclude_operations ops)))).
Proof.
  intros Hattr. split.
  - intros self ops Hops Hin. apply on_end_fail_state.
    unfold all_predicates_pass, passes_exclude_operations, OPERATION_KEY.
    rewrite Hops, Hattr. destruct ops as [|o ops]; [destruct Hin|].
    apply py_in_text in Hin. rewrite Hin.
    cbn [negb]. rewrite andb_false_r. reflexivity.
  - intros e ops Hnotin. apply on_end_pass.
    unfold all_predicates_pass, passes_include_names, passes_operation_names,
      passes_min_duration, passes_exclude_operations, passes_exclude_span_kinds,
      OPERATION_KEY.
    cbn [init filter_criteria truthy_dict only_exclude_operations include_names
         operation_names min_duration_ms exclude_operations exclude_span_kinds].
    destruct ops as [|o ops]; [reflexivity|].
    rewrite Hattr.
    destruct (py_in (Some (AStr s)) (o :: ops)) eqn:Hpy; [|reflexivity].
    apply py_in_text in Hpy. contradiction.
Qed.

Lemma excluded_operation_never_exported_witness :
  state_of (on_end span_chat_operation
              (init fresh_exporter (Some (only_exclude_operations [AStr "chat"]))))
  = init fresh_exporter (Some (only_exclude_operations [AStr "chat"]))
  /\ on_end span_chat_operation
       (init fresh_exporter (Some (only_exclude_operations [AStr "debug_ping"])))
     = forward span_chat_operation
         (init fresh_exporter (Some (only_exclude_operations [AStr "debug_ping"]))).
Proof.
  split.
  - apply (proj1 (excluded_operation_never_exported span_chat_operation "chat" eq_refl)
             (init fresh_exporter (Some (only_exclude_operations [AStr "chat"])))
             [AStr "chat"] eq_refl).
    left. reflexivity.
  - apply (proj2 (excluded_operation_never_exported span_chat_operation "chat" eq_refl)
             fresh_exporter [AStr "debug_ping"]).
    intros [H | []]. discriminate H.
Defined.

Lemma SpanKind_eqb_eq (a b : SpanKind) : SpanKind_eqb a b = true <-> a = b.
Proof. destruct a, b; split; intros H; try reflexivity; discriminate H. Qed.

Lemma kind_in_list (k : SpanKind) (kinds : list SpanKind) :
  existsb (SpanKind_eqb k) kinds = true <-> In k kinds.
Proof.
  rewrite existsb_exists. split.
  - intros [k' [Hin Heq]]. apply SpanKind_eqb_eq in Heq. subst k'. exact Hin.
  - intros Hin. exists k. split; [exact Hin | apply SpanKind_eqb_eq; reflexivity].
Qed.

(** X10: for any list [exclude_span_kinds] and any other criteria, a span
    whose kind is in the list never reaches the exporter, and a span whose
    kind is not in the list is treated as if the key were absent. *)
Theorem excluded_kind_never_exported {E} `{X : SpanExporter E}
    (self : FilteringSpanProcessor E) (kinds : list SpanKind) (span : Span) :
  exclude_span_kinds (filter_criteria self) = Some kinds ->
  (In (kind span) kinds -> state_of (on_end span self) = self)
  /\ (~ In (kind span) kinds ->
        exporter_outcome (on_end span self)
        = exporter_outcome
            (on_end span
               (with_criteria (with_exclude_span_kinds None (filter_criteria self)) self))).
Proof.
  intros Hkinds. split.
  - intros Hin. apply on_end_fail_state.
    unfold all_predicates_pass, passes_exclude_span_kinds. rewrite Hkinds.
    destruct kinds as [|k kinds]; [destruct Hin|].
    apply kind_in_list in Hin. rewrite Hin. apply andb_false_r.
  - intros Hnotin. rewrite !exporter_outcome_on_end.
    assert (Hno : existsb (SpanKind_eqb (kind span)) kinds = false).
    { destruct (existsb (SpanKind_eqb (kind span)) kinds) eqn:Hex; [|reflexivity].
      apply kind_in_list in Hex. contradiction. }
    unfold filtered_outcome, passes_exclude_span_kinds. rewrite Hkinds.
    destruct kinds as [|k kinds]; [|rewrite Hno];
      destruct self as [e c]; destruct c; reflexivity.
Qed.

Lemma excluded_kind_never_exported_witness :
  state_of (on_end span_100ms
              (init fresh_exporter
                 (Some (with_exclude_span_kinds (Some [SERVER; CLIENT]) empty_criteria))))
  = init fresh_exporter
      (Some (with_exclude_span_kinds (Some [SERVER; CLIENT]) empty_criteria)).
Proof.
  apply (proj1 (excluded_kind_never_exported
                  (init fresh_exporter
                     (Some (with_exclude_span_kinds (Some [SERVER; CLIENT]) empty_criteria)))
                  [SERVER; CLIENT] span_100ms eq_refl)).
  right. left. reflexivity.
Defined.

(** X11: the decision does not depend on the exporter: two processors
    built on the same criteria, as the Azure Monitor one and the console one
    of the script are, export the same spans, whatever their exporters are
    and do. *)
Theorem same_criteria_same_decision {E1 E2} `{X1 : SpanExporter E1} `{X2 : SpanExporter E2}
    (self1 : FilteringSpanProcessor (Recorder E1))
    (self2 : FilteringSpanProcessor (Recorder E2)) (span : Span) :
  filter_criteria self1 = filter_criteria self2 ->
  calls_after (on_end span self1) = calls (exporter self1) ++ [CallExport [span]]
  <-> calls_after (on_end span self2) = calls (exporter self2) ++ [CallExport [span]].
Proof.
  intros Hsame. rewrite !exported_means_all_pass, Hsame. reflexivity.
Qed.

Lemma same_criteria_same_decision_witness :
  calls_after (on_end span_without_operation
                 (init {| calls := [CallShutdown]; inner := tt |}
                    (Some (only_include_names ["chat"]))))
  = [CallShutdown] ++ [CallExport [span_without_operation]].
Proof.
  apply (same_criteria_same_decision (X1 := Counting_exporter) (X2 := Broken_exporter)
           (init fresh_recorder (Some (only_include_names ["chat"])))
           (init {| calls := [CallShutdown]; inner := tt |}
              (Some (only_include_names ["chat"])))
           span_without_operation eq_refl).
  reflexivity.
Defined.

(** ** The duration block at the edges *)

(** Rounding keeps the sign it is given, or fails to a NaN. *)
Lemma binary_round_aux_sign (s : bool) (m e : Z) (l : location) :
  binary_round_aux 53 1024 s m e l = S754_zero s
  \/ (exists m' e', binary_round_aux 53 1024 s m e l = S754_finite s m' e')
  \/ binary_round_aux 53 1024 s m e l = S754_infinity s
  \/ binary_round_aux 53 1024 s m e l = S754_nan.
Proof.
  unfold binary_round_aux.
  destruct (shr_fexp 53 1024 m e l) as [mrs e1].
  destruct (shr_fexp 53 1024 _ e1 loc_Exact) as [mrs2 e2].
  destruct (shr_m mrs2) as [|p|p].
  - left. reflexivity.
  - destruct (Z.leb e2 (1024 - 53)).
    + right. left. exists p, e2. reflexivity.
    + right. right. left. reflexivity.
  - right. right. right. reflexivity.
Qed.

Lemma float_lt_int_nonneg (m : positive) (e floor : Z) :
  floor < 0 -> float_lt_int (S754_finite false m e) floor = false.
Proof.
  intros Hfloor. unfold float_lt_int.
  destruct (Z.leb 0 e) eqn:He; apply Z.ltb_ge.
  - pose proof (Z.pow_nonneg 2 e ltac:(lia)). nia.
  - pose proof (Z.pow_nonneg 2 (- e) ltac:(lia)). nia.
Qed.

(** X12: the duration block at zero.  With a positive floor, a span that
    ends at the instant it starts is dropped; with a negative floor, a span
    that does not end before it starts is never dropped by this block (the
    block lets it through, unless the quotient overflows). *)
Theorem min_duration_at_zero {S : Type}
    (c : FilterCriteria) (floor : Z) (span : Span) (st : S) :
  min_duration_ms c = Some floor ->
  (0 < floor -> end_time span = start_time span ->
     filter_min_duration c span st = Returned true st)
  /\ (floor < 0 -> start_time span <= end_time span ->
        filter_min_duration c span st = Returned false st
        \/ filter_min_duration c span st = Raised OverflowError st).
Proof.
  intros Hfloor. unfold filter_min_duration, getitem, lift_result, bind, ret, raise.
  rewrite Hfloor. cbn [truthy_int]. split.
  - intros Hpos Heq. rewrite Heq, Z.sub_diag.
    destruct (Z.eqb_spec floor 0) as [->|_]; [lia|]. cbn [negb].
    change (int_truediv 0 1000000) with (@inr PyExn _ (S754_zero false)).
    cbn [float_lt_int]. destruct (Z.ltb_spec 0 floor); [reflexivity | lia].
  - intros Hneg Hle.
    destruct (Z.eqb_spec floor 0) as [->|_]; [lia|]. cbn [negb].
    destruct (end_time span - start_time span) as [|d|d] eqn:Hd; [| |lia].
    + change (int_truediv 0 1000000) with (@inr PyExn _ (S754_zero false)).
      cbn [float_lt_int]. destruct (Z.ltb_spec 0 floor); [lia|]. left. reflexivity.
    + unfold int_truediv. change (Z.eqb 1000000 0) with false. cbv iota.
      unfold Z2SF, SFdiv.
      destruct (SFdiv_core_binary 53 1024 (Z.pos d) 0 1000000 0) as [[mz ez] lz].
      cbn [xorb].
      destruct (binary_round_aux_sign false mz ez lz)
        as [-> | [(m' & e' & ->) | [-> | ->]]].
      * cbn [float_lt_int]. destruct (Z.ltb_spec 0 floor); [lia|]. left. reflexivity.
      * rewrite (float_lt_int_nonneg m' e' floor Hneg). left. reflexivity.
      * right. reflexivity.
      * left. reflexivity.
Qed.

Lemma min_duration_at_zero_witness :
  filter_min_duration (only_min_duration_ms 100) span_instant tt = Returned true tt
  /\ (filter_min_duration (only_min_duration_ms (-5)) span_unnamed tt
      = Returned false tt
      \/ filter_min_duration (only_min_duration_ms (-5)) span_unnamed tt
         = Raised OverflowError tt).
Proof.
  split.
  - refine (proj1 (min_duration_at_zero (only_min_duration_ms 100) 100
                     span_instant tt eq_refl) _ _); reflexivity.
  - refine (proj2 (min_duration_at_zero (only_min_duration_ms (-5)) (-5)
                     span_unnamed tt eq_refl) _ _).
    + reflexivity.
    + discriminate.
Defined.

(** ** The loop of [setup_azure_ai_observability] over the processors *)

(** X13: the loop of lines 146-149 never removes a processor.  It ends
    normally, with the registered processors as they were, exactly when
    none of them has an [AzureMonitorTraceExporter] under [_exporter];
    otherwise it raises [AttributeError] at the first that has one.  A
    [FilteringSpanProcessor] never triggers the error, even when it wraps
    an [AzureMonitorTraceExporter], since it keeps it under [exporter]. *)
Theorem remove_azure_processors_never_removes (heap : nat -> ProcessorObj)
    (span_processors : list nat) :
  ((remove_azure_processors heap span_processors = LoopFinished span_processors
    /\ Forall (fun r => has_azure_exporter (heap r) = false) span_processors)
   \/ (exists before processor after,
         span_processors = before ++ processor :: after
         /\ Forall (fun r => has_azure_exporter (heap r) = false) before
         /\ has_azure_exporter (heap processor) = true
         /\ remove_azure_processors heap span_processors
            = LoopAttributeError processor))
  /\ (forall r p, heap r = FilteringProcessor p ->
        remove_azure_processors heap span_processors <> LoopAttributeError r).
Proof.
  unfold remove_azure_processors. cbv zeta.
  assert (Hcases : forall live existing,
    (remove_azure_loop heap existing live = LoopFinished live
     /\ Forall (fun r => has_azure_exporter (heap r) = false) existing)
    \/ (exists before processor after,
          existing = before ++ processor :: after
          /\ Forall (fun r => has_azure_exporter (heap r) = false) before
          /\ has_azure_exporter (heap processor) = true
          /\ remove_azure_loop heap existing live = LoopAttributeError processor)).
  { intros live existing. induction existing as [|q l IH]; cbn [remove_azure_loop].
    - left. split; [reflexivity | constructor].
    - destruct (has_azure_exporter (heap q)) eqn:Hq.
      + right. exists [], q, l. repeat split; [constructor | exact Hq].
      + destruct IH as [[Hfin Hall] | (before & r & after & Hl & Hbefore & Hr & Hraise)].
        * left. split; [exact Hfin | constructor; assumption].
        * right. exists (q :: before), r, after. subst l.
          repeat split; [constructor; assumption | exact Hr | exact Hraise]. }
  split; [apply Hcases|].
  intros r p Hr. generalize span_processors at 2 as live. intros live.
  induction span_processors as [|q l IH]; cbn [remove_azure_loop].
  - discriminate.
  - destruct (has_azure_exporter (heap q)) eqn:Hq; [|exact IH].
    intros Heq. injection Heq as ->. rewrite Hr in Hq. discriminate Hq.
Qed.
